(** * Fitness and Health Tracker: the validate / persist / refresh cycle

    A shallow embedding of [MartinezAdamFinalProject.py]: the three SQLite
    tables created by [setup_database], the form callbacks [log_activity],
    [log_nutrition] and [set_goals] of [FitnessApp], and the views
    [load_activities], [load_nutrition] and [open_summary_window].

    The Tk widgets are reduced to the text they hold; the database file is
    reduced to its committed contents.  Every callback is taken to find the
    file available (present, writable, not locked): the one failure of the
    storage layer that is modelled is the one a submitted value decides, the
    [OverflowError] on an integer that does not fit an INTEGER column. *)

From Stdlib Require Import ZArith List String Ascii Bool Lia DecimalString.
From Stdlib Require Finite.
Import ListNotations.

Local Open Scope string_scope.
Local Open Scope Z_scope.

(** ** Python values *)

Module Py.

(** Truth value of a [str]: [not s] holds exactly for the empty string. *)
Definition truthy (s : string) : bool :=
  match s with
  | EmptyString => false
  | String _ _ => true
  end.

(** [str(n)] / the [{n}] of an f-string for an [int]. *)
Definition str (n : Z) : string := NilZero.string_of_int (Z.to_int n).

(** [str.isspace] on one ASCII character: TAB..CR, FS..US and the space. *)
Definition isspace (c : ascii) : bool :=
  let n := nat_of_ascii c in
  ((9 <=? n)%nat && (n <=? 13)%nat) || ((28 <=? n)%nat && (n <=? 32)%nat).

Definition digit (c : ascii) : option Z :=
  let n := nat_of_ascii c in
  if ((48 <=? n)%nat && (n <=? 57)%nat) then Some (Z.of_nat (n - 48)) else None.

Fixpoint lstrip (s : list ascii) : list ascii :=
  match s with
  | c :: s' => if isspace c then lstrip s' else s
  | [] => []
  end.

Definition strip (s : list ascii) : list ascii :=
  rev (lstrip (rev (lstrip s))).

(** Decimal digits with single underscores between digits; [after_digit]
    tells whether the previous character was a digit. *)
Fixpoint digits (acc : Z) (after_digit : bool) (s : list ascii) : option Z :=
  match s with
  | [] => if after_digit then Some acc else None
  | c :: s' =>
      match digit c with
      | Some d => digits (10 * acc + d) true s'
      | None =>
          if (Ascii.eqb c "_" && after_digit)%bool then digits acc false s'
          else None
      end
  end.

(** [int(s)] on an ASCII string, [None] standing for [ValueError]:
    surrounding white space is dropped, then an optional sign, then the
    digits. *)
Definition int (s : string) : option Z :=
  match strip (list_ascii_of_string s) with
  | "-"%char :: ds => option_map Z.opp (digits 0 false ds)
  | "+"%char :: ds => digits 0 false ds
  | ds => digits 0 false ds
  end.

(** All characters are white space (the empty string included). *)
Definition all_space (s : string) : bool :=
  forallb isspace (list_ascii_of_string s).

End Py.

(** ** The SQLite layer *)

Module Sqlite.

(** An INTEGER value is a signed 64-bit integer.  Binding a Python [int]
    outside that range makes [cursor.execute] raise [OverflowError]
    before the statement runs. *)
Definition INT64_MIN : Z := - 2 ^ 63.
Definition INT64_MAX : Z := 2 ^ 63 - 1.

Definition fits (n : Z) : bool := (INT64_MIN <=? n) && (n <=? INT64_MAX).

Definition bind_int (n : Z) : option Z := if fits n then Some n else None.

(** A table with an [INTEGER PRIMARY KEY AUTOINCREMENT] column: the rows in
    rowid order, each with its id, and the table's entry in
    [sqlite_sequence], the largest id ever handed out. *)
Record table (R : Type) : Type := mkTable {
  rows : list (Z * R);
  seq : Z
}.
Arguments mkTable {R} _ _.
Arguments rows {R} _.
Arguments seq {R} _.

(** [CREATE TABLE IF NOT EXISTS] on a fresh file. *)
Definition create {R} : table R := mkTable [] 0.

Definition ids {R} (t : table R) : list Z := map fst (rows t).

Definition max_id (l : list Z) : Z := fold_right Z.max 0 l.

(** AUTOINCREMENT: one more than the largest id that ever existed.  A table
    that has handed out the id [INT64_MAX] takes no further row; that many
    rows are out of reach and the case is left out. *)
Definition next_id {R} (t : table R) : Z := Z.max (max_id (ids t)) (seq t) + 1.

(** [INSERT INTO t (...) VALUES (...)]. *)
Definition insert {R} (t : table R) (r : R) : table R :=
  let id := next_id t in
  mkTable (rows t ++ [(id, r)]) id.

(** [DELETE FROM t]: every row goes, [sqlite_sequence] stays. *)
Definition delete_all {R} (t : table R) : table R := mkTable [] (seq t).

(** [SELECT cols FROM t] followed by [fetchall()]. *)
Definition select_all {R} (t : table R) : list R := map snd (rows t).

(** [SELECT cols FROM t ORDER BY id DESC LIMIT 1] followed by [fetchone()]:
    the row with the largest id, [None] when there is no row. *)
Fixpoint top {R} (l : list (Z * R)) : option (Z * R) :=
  match l with
  | [] => None
  | (i, r) :: l' =>
      match top l' with
      | Some (j, r') => if i <? j then Some (j, r') else Some (i, r)
      | None => Some (i, r)
      end
  end.

Definition select_latest {R} (t : table R) : option R :=
  option_map snd (top (rows t)).

End Sqlite.

Import Sqlite.

(** ** The schema of [setup_database] *)

Definition text := string.

(** [activities(id, activity_name TEXT NOT NULL, duration INTEGER NOT NULL,
    intensity TEXT NOT NULL, date DATE DEFAULT (DATE('now')))] *)
Record ActivityRecord : Type := mkActivity {
  activity_name : text;
  duration : Z;
  intensity : text;
  activity_date : text
}.

(** [nutrition(id, food_item TEXT NOT NULL, calories INTEGER NOT NULL,
    carbs INTEGER, protein INTEGER, fats INTEGER,
    date DATE DEFAULT (DATE('now')))]; a nullable column is an [option]. *)
Record NutritionRecord : Type := mkNutrition {
  food_item : text;
  calories : Z;
  carbs : option Z;
  protein : option Z;
  fats : option Z;
  nutrition_date : text
}.

(** [goals(id, weekly_exercise_goal INTEGER, daily_calorie_limit INTEGER)] *)
Record GoalRecord : Type := mkGoal {
  weekly_exercise_goal : option Z;
  daily_calorie_limit : option Z
}.

(** The committed contents of [fitness_tracker.db]. *)
Record Store : Type := mkStore {
  activities : table ActivityRecord;
  nutrition : table NutritionRecord;
  goals : table GoalRecord
}.

(** [setup_database] on a new file: the three tables, empty. *)
Definition setup_database : Store := mkStore create create create.

(** ** The application state

    What [FitnessApp] keeps between two callbacks: the database file and the
    text of the three widgets the callbacks write to. *)
Record App : Type := mkApp {
  db : Store;
  activity_list : string;
  nutrition_list : string;
  goal_status : string
}.

(** How a submission ends.  [MissingField] and [NotNumeric] are the two
    [messagebox.showerror] returns of each callback; [Overflow] is the
    [OverflowError] that [cursor.execute] raises and no callback catches. *)
Inductive Error : Type := MissingField | NotNumeric | Overflow.

Inductive Outcome : Type := Success | Failure (e : Error).

Inductive Form : Type := ActivityForm | NutritionForm | GoalsForm.

(** Title and text of the message box a callback of form [f] shows on outcome
    [o]; none for [Overflow], where the exception leaves the callback. *)
Definition messagebox (f : Form) (o : Outcome) : option (string * string) :=
  match o, f with
  | Failure MissingField, NutritionForm =>
      Some ("Input Error", "Food Item and Calories are required!")
  | Failure MissingField, _ => Some ("Input Error", "All fields are required!")
  | Failure NotNumeric, ActivityForm =>
      Some ("Input Error", "Duration must be a number!")
  | Failure NotNumeric, NutritionForm =>
      Some ("Input Error", "Calories, Carbs, Protein, and Fats must be numbers!")
  | Failure NotNumeric, GoalsForm => Some ("Input Error", "Goals must be numbers!")
  | Failure Overflow, _ => None
  | Success, ActivityForm => Some ("Success", "Activity logged successfully!")
  | Success, NutritionForm => Some ("Success", "Nutrition logged successfully!")
  | Success, GoalsForm => Some ("Success", "Goals set successfully!")
  end.

Inductive result (A : Type) : Type :=
| Ok (a : A)
| Err (e : Error).
Arguments Ok {A} _.
Arguments Err {A} _.

Definition bind {A B} (m : result A) (k : A -> result B) : result B :=
  match m with
  | Ok a => k a
  | Err e => Err e
  end.

Notation "x <- m ;; k" := (bind m (fun x => k))
  (at level 61, m at next level, right associativity).

Definition nl : string := String (ascii_of_nat 10) EmptyString.

(** ** View refresh *)

(** The f-string of [load_activities]. *)
Definition activity_line (r : ActivityRecord) : string :=
  activity_name r ++ " - " ++ Py.str (duration r) ++ " min - "
    ++ intensity r ++ " - " ++ activity_date r ++ nl.

(** A nullable INTEGER inside an f-string. *)
Definition fmt (v : option Z) : string :=
  match v with
  | Some n => Py.str n
  | None => "None"
  end.

(** The f-string of [load_nutrition]. *)
Definition nutrition_line (r : NutritionRecord) : string :=
  food_item r ++ " - " ++ Py.str (calories r) ++ " cal - "
    ++ fmt (carbs r) ++ "g carbs - " ++ fmt (protein r) ++ "g protein - "
    ++ fmt (fats r) ++ "g fats - " ++ nutrition_date r ++ nl.

(** The strings [load_activities] inserts into the cleared text widget. *)
Definition activity_lines (records : list ActivityRecord) : list string :=
  match records with
  | [] => ["No activities logged yet." ++ nl]
  | _ :: _ => map activity_line records
  end.

(** The strings [load_nutrition] inserts into the cleared text widget. *)
Definition nutrition_lines (records : list NutritionRecord) : list string :=
  match records with
  | [] => ["No nutrition records found." ++ nl]
  | _ :: _ => map nutrition_line records
  end.

Definition list_activities (s : Store) : list ActivityRecord :=
  select_all (activities s).

Definition list_nutrition (s : Store) : list NutritionRecord :=
  select_all (nutrition s).

Definition latest_goal (s : Store) : option GoalRecord :=
  select_latest (goals s).

Definition load_activities (app : App) : App :=
  mkApp (db app)
        (String.concat "" (activity_lines (list_activities (db app))))
        (nutrition_list app) (goal_status app).

Definition load_nutrition (app : App) : App :=
  mkApp (db app) (activity_list app)
        (String.concat "" (nutrition_lines (list_nutrition (db app))))
        (goal_status app).

(** The labels packed into the summary window, top to bottom. *)
Definition open_summary_window (app : App) : list string :=
  "Your Current Goals:" ::
  match latest_goal (db app) with
  | Some g =>
      [ "Weekly Exercise: " ++ fmt (weekly_exercise_goal g) ++ " hrs";
        "Daily Calorie Limit: " ++ fmt (daily_calorie_limit g) ++ " cal" ]
  | None => [ "No goals set yet." ]
  end.

(** ** Record store *)

(** The INSERT of [log_activity] (lines 219-224); [today] is what
    [DATE('now')] yields for the new row. *)
Definition insert_activity (today name : text) (duration : Z) (intensity : text)
    (s : Store) : result Store :=
  match bind_int duration with
  | Some d =>
      Ok (mkStore (insert (activities s) (mkActivity name d intensity today))
                  (nutrition s) (goals s))
  | None => Err Overflow
  end.

(** The INSERT of [log_nutrition] (lines 323-330). *)
Definition insert_nutrition (today food_item : text)
    (calories carbs protein fats : Z) (s : Store) : result Store :=
  match bind_int calories, bind_int carbs, bind_int protein, bind_int fats with
  | Some cal, Some c, Some p, Some f =>
      Ok (mkStore (activities s)
                  (insert (nutrition s)
                          (mkNutrition food_item cal (Some c) (Some p) (Some f) today))
                  (goals s))
  | _, _, _, _ => Err Overflow
  end.

(** The DELETE and the INSERT of [set_goals] (lines 416-422), in one
    transaction: the DELETE works on the connection's own view [tx], and only
    [commit] makes it the file's contents.  When the INSERT raises, nothing
    is committed. *)
Definition replace_goal (exercise_goal calorie_limit : Z) (s : Store)
    : result Store :=
  let tx := mkStore (activities s) (nutrition s) (delete_all (goals s)) in
  match bind_int exercise_goal, bind_int calorie_limit with
  | Some e, Some c =>
      Ok (mkStore (activities tx) (nutrition tx)
                  (insert (goals tx) (mkGoal (Some e) (Some c))))
  | _, _ => Err Overflow
  end.

(** ** The form callbacks *)

Section Forms.

(** Python's [int] on the contents of an entry; [None] is [ValueError].
    The callbacks are written against any such conversion; [Py.int] is the
    one for ASCII entries.  Where a property needs it, the fact that
    [int('')] raises is stated as [int "" = None]. *)
Variable int : string -> option Z.

Definition to_int (s : string) : result Z :=
  match int s with
  | Some n => Ok n
  | None => Err NotNumeric
  end.

(** The two validation steps of [log_activity] (lines 206-216). *)
Definition validate_activity (name duration intensity : string)
    : result (text * Z * text) :=
  if negb (Py.truthy name) || negb (Py.truthy duration)
     || negb (Py.truthy intensity)
  then Err MissingField
  else
    d <- to_int duration ;;
    Ok (name, d, intensity).

(** The two validation steps of [log_nutrition] (lines 307-320). *)
Definition validate_nutrition (food_item calories carbs protein fats : string)
    : result (text * Z * Z * Z * Z) :=
  if negb (Py.truthy food_item) || negb (Py.truthy calories)
  then Err MissingField
  else
    cal <- to_int calories ;;
    c <- (if Py.truthy carbs then to_int carbs else Ok 0) ;;
    p <- (if Py.truthy protein then to_int protein else Ok 0) ;;
    f <- (if Py.truthy fats then to_int fats else Ok 0) ;;
    Ok (food_item, cal, c, p, f).

(** The two validation steps of [set_goals] (lines 402-413). *)
Definition validate_goals (exercise_goal calorie_limit : string)
    : result (Z * Z) :=
  if negb (Py.truthy exercise_goal) || negb (Py.truthy calorie_limit)
  then Err MissingField
  else
    e <- to_int exercise_goal ;;
    c <- to_int calorie_limit ;;
    Ok (e, c).

Definition with_db (app : App) (s : Store) : App :=
  mkApp s (activity_list app) (nutrition_list app) (goal_status app).

Definition log_activity (today name duration intensity : string) (app : App)
    : App * Outcome :=
  match validate_activity name duration intensity with
  | Err e => (app, Failure e)
  | Ok (name, duration, intensity) =>
      match insert_activity today name duration intensity (db app) with
      | Err e => (app, Failure e)
      | Ok s => (load_activities (with_db app s), Success)
      end
  end.

Definition log_nutrition (today food_item calories carbs protein fats : string)
    (app : App) : App * Outcome :=
  match validate_nutrition food_item calories carbs protein fats with
  | Err e => (app, Failure e)
  | Ok (food_item, calories, carbs, protein, fats) =>
      match insert_nutrition today food_item calories carbs protein fats (db app) with
      | Err e => (app, Failure e)
      | Ok s => (load_nutrition (with_db app s), Success)
      end
  end.

Definition set_goals (exercise_goal calorie_limit : string) (app : App)
    : App * Outcome :=
  match validate_goals exercise_goal calorie_limit with
  | Err e => (app, Failure e)
  | Ok (exercise_goal, calorie_limit) =>
      match replace_goal exercise_goal calorie_limit (db app) with
      | Err e => (app, Failure e)
      | Ok s =>
          (mkApp s (activity_list app) (nutrition_list app)
                 ("Weekly Goal: " ++ Py.str exercise_goal
                    ++ " hrs | Daily Limit: " ++ Py.str calorie_limit ++ " cal"),
           Success)
      end
  end.

(** What the user can do to a running application. *)
Inductive Action : Type :=
| LogActivity (today name duration intensity : string)
| LogNutrition (today food_item calories carbs protein fats : string)
| SetGoals (exercise_goal calorie_limit : string)
| LoadActivities
| LoadNutrition
| ViewSummary.

Definition step (app : App) (a : Action) : App * Outcome :=
  match a with
  | LogActivity today name duration intensity =>
      log_activity today name duration intensity app
  | LogNutrition today food_item calories carbs protein fats =>
      log_nutrition today food_item calories carbs protein fats app
  | SetGoals exercise_goal calorie_limit =>
      set_goals exercise_goal calorie_limit app
  | LoadActivities => (load_activities app, Success)
  | LoadNutrition => (load_nutrition app, Success)
  | ViewSummary => (app, Success)
  end.

(** The application after a sequence of actions, and how each ended. *)
Fixpoint run (app : App) (l : list Action) : App * list Outcome :=
  match l with
  | [] => (app, [])
  | a :: l' =>
      let (app', o) := step app a in
      let (app'', os) := run app' l' in
      (app'', o :: os)
  end.

(** [__init__] on a fresh database file: the tabs load their lists. *)
Definition init : App :=
  load_nutrition (load_activities (mkApp setup_database "" "" "")).

(** States of the application: a fresh start, then any callbacks. *)
Inductive reachable : App -> Prop :=
| reach_init : reachable init
| reach_step app a : reachable app -> reachable (fst (step app a)).


End Forms.

(** ** Observations on runs *)

Definition goal_count (app : App) : nat := List.length (rows (goals (db app))).

Definition is_set_goals (a : Action) : bool :=
  match a with
  | SetGoals _ _ => true
  | _ => false
  end.

Definition succeeded (o : Outcome) : bool :=
  match o with
  | Success => true
  | Failure _ => false
  end.

(** Some [set_goals] of the sequence [l] ended in [Success], [os] being the
    outcomes of [l]. *)
Definition goal_was_set (l : list Action) (os : list Outcome) : bool :=
  existsb (fun p => is_set_goals (fst p) && succeeded (snd p)) (combine l os).

(** ** Validation outcome of an action *)

(** The error with which the validation steps of a submission fail, [None]
    when they pass or when the action has no form to validate. *)
Definition rejected (int : string -> option Z) (a : Action) : option Error :=
  match a with
  | LogActivity _ name duration intensity =>
      match validate_activity int name duration intensity with
      | Err e => Some e
      | Ok _ => None
      end
  | LogNutrition _ food_item calories carbs protein fats =>
      match validate_nutrition int food_item calories carbs protein fats with
      | Err e => Some e
      | Ok _ => None
      end
  | SetGoals exercise_goal calorie_limit =>
      match validate_goals int exercise_goal calorie_limit with
      | Err e => Some e
      | Ok _ => None
      end
  | LoadActivities | LoadNutrition | ViewSummary => None
  end.

(** A field the user filled with white space only. *)
Definition blank (s : string) : Prop := s <> "" /\ Py.all_space s = true.

(** ** Starting on an existing file *)

(** The database file as [setup_database] finds it: each of the three tables
    is there, with its rows and its [sqlite_sequence] entry, or is not. *)
Record File : Type := mkFile {
  file_activities : option (table ActivityRecord);
  file_nutrition : option (table NutritionRecord);
  file_goals : option (table GoalRecord)
}.

(** [CREATE TABLE IF NOT EXISTS]. *)
Definition create_if_not_exists {R} (t : option (table R)) : table R :=
  match t with
  | Some t => t
  | None => create
  end.

(** [setup_database] (lines 29-71) on any file. *)
Definition setup_database_on (f : File) : Store :=
  mkStore (create_if_not_exists (file_activities f))
          (create_if_not_exists (file_nutrition f))
          (create_if_not_exists (file_goals f)).

(** No file yet: [sqlite3.connect] creates an empty one. *)
Definition no_file : File := mkFile None None None.

(** The file a store leaves behind. *)
Definition file_of (s : Store) : File :=
  mkFile (Some (activities s)) (Some (nutrition s)) (Some (goals s)).

(** The entry point (lines 471-474): [setup_database()], then
    [FitnessApp()], whose activity and nutrition tabs load their lists and
    whose goal label starts empty. *)
Definition main (f : File) : App :=
  load_nutrition (load_activities (mkApp (setup_database_on f) "" "" "")).

(** ** Further observations *)

Definition is_log_activity (a : Action) : bool :=
  match a with
  | LogActivity _ _ _ _ => true
  | _ => false
  end.

Definition is_log_nutrition (a : Action) : bool :=
  match a with
  | LogNutrition _ _ _ _ _ _ => true
  | _ => false
  end.

(** How many actions of [l] of the kind [p] ended in [Success], [os] being
    the outcomes of [l]. *)
Definition successes (p : Action -> bool) (l : list Action) (os : list Outcome)
    : nat :=
  List.length (filter (fun x => p (fst x) && succeeded (snd x)) (combine l os)).

(** The ids 1, 2, ..., n. *)
Definition first_ids (n : nat) : list Z := map Z.of_nat (List.seq 1 n).

(** [int(s) if s else 0]: the value of an optional entry of the nutrition
    form, [None] when the entry is filled and is no integer. *)
Definition optional_value (int : string -> option Z) (s : string) : option Z :=
  if Py.truthy s then int s else Some 0.

(** The text [set_goals] puts into the goal label. *)
Definition goal_label (e c : Z) : string :=
  "Weekly Goal: " ++ Py.str e ++ " hrs | Daily Limit: " ++ Py.str c ++ " cal".

(** The two list widgets show what the tables hold. *)
Definition in_sync (app : App) : Prop :=
  activity_list app
  = String.concat "" (activity_lines (list_activities (db app))) /\
  nutrition_list app
  = String.concat "" (nutrition_lines (list_nutrition (db app))).

(** A stored value that is an integer of an INTEGER column, not NULL. *)
Definition stored_int (v : option Z) : bool :=
  match v with
  | Some n => fits n
  | None => false
  end.

Definition activity_ok (r : ActivityRecord) : bool :=
  Py.truthy (activity_name r) && Py.truthy (intensity r) && fits (duration r).

Definition nutrition_ok (r : NutritionRecord) : bool :=
  Py.truthy (food_item r) && fits (calories r)
  && stored_int (carbs r) && stored_int (protein r) && stored_int (fats r).

Definition goal_ok (r : GoalRecord) : bool :=
  stored_int (weekly_exercise_goal r) && stored_int (daily_calorie_limit r).

(** Every row of the store went through a form's validation. *)
Definition store_ok (s : Store) : bool :=
  forallb activity_ok (select_all (activities s))
  && forallb nutrition_ok (select_all (nutrition s))
  && forallb goal_ok (select_all (goals s)).

(** ** Basic facts about the two layers *)


Lemma truthy_true (s : string) : Py.truthy s = true <-> s <> "".
Proof. destruct s; simpl; split; intro H; congruence. Qed.


Lemma bind_int_Some (n m : Z) : bind_int n = Some m -> m = n /\ fits n = true.
Proof. unfold bind_int. destruct (fits n); intro H; inversion H; auto. Qed.



Lemma rows_insert {R} (t : table R) (r : R) :
  rows (insert t r) = (rows t ++ [(next_id t, r)])%list.
Proof. reflexivity. Qed.

Lemma select_all_insert {R} (t : table R) (r : R) :
  select_all (insert t r) = (select_all t ++ [r])%list.
Proof. unfold select_all. rewrite rows_insert, map_app. reflexivity. Qed.

Lemma select_latest_replace {R} (t : table R) (r : R) :
  select_latest (insert (delete_all t) r) = Some r.
Proof. reflexivity. Qed.

Lemma select_latest_None {R} (t : table R) :
  select_latest t = None <-> rows t = [].
Proof.
  unfold select_latest. destruct (rows t) as [|[i r] l]; simpl.
  - tauto.
  - split; [|discriminate].
    destruct (top l) as [[j r']|]; [destruct (i <? j)|]; discriminate.
Qed.

(** Case analysis on an optional entry [s]: filled and converted, filled and
    refused, or left empty. *)
Ltac optional_entry int s :=
  destruct (Py.truthy s); [destruct (int s)|]; simpl.

(** ** What each callback does to the application *)

Section Callbacks.

Variable int : string -> option Z.

Lemma to_int_Ok (s : string) (n : Z) : to_int int s = Ok n <-> int s = Some n.
Proof. unfold to_int. destruct (int s); split; intro H; inversion H; auto. Qed.

Lemma to_int_Err (s : string) (e : Error) :
  to_int int s = Err e -> e = NotNumeric /\ int s = None.
Proof. unfold to_int. destruct (int s); intro H; inversion H; auto. Qed.

(** The validators fail with [MissingField] or [NotNumeric] only. *)
Lemma validate_activity_Err name duration intensity e :
  validate_activity int name duration intensity = Err e ->
  e = MissingField \/ e = NotNumeric.
Proof.
  unfold validate_activity.
  destruct (_ || _); [intro H; inversion H; auto|].
  unfold to_int. destruct (int duration); simpl; intro H; inversion H; auto.
Qed.

Lemma validate_nutrition_Err food_item calories carbs protein fats e :
  validate_nutrition int food_item calories carbs protein fats = Err e ->
  e = MissingField \/ e = NotNumeric.
Proof.
  unfold validate_nutrition, to_int.
  destruct (_ || _); [intro H; inversion H; auto|].
  destruct (int calories); simpl; [|intro H; inversion H; auto].
  optional_entry int carbs; try (intro H; inversion H; auto; fail);
    (optional_entry int protein; try (intro H; inversion H; auto; fail));
    (optional_entry int fats; intro H; inversion H; auto).
Qed.

Lemma validate_goals_Err exercise_goal calorie_limit e :
  validate_goals int exercise_goal calorie_limit = Err e ->
  e = MissingField \/ e = NotNumeric.
Proof.
  unfold validate_goals, to_int.
  destruct (_ || _); [intro H; inversion H; auto|].
  destruct (int exercise_goal); simpl; [|intro H; inversion H; auto].
  destruct (int calorie_limit); simpl; intro H; inversion H; auto.
Qed.



Lemma set_goals_Failure exercise_goal calorie_limit app e :
  snd (set_goals int exercise_goal calorie_limit app) = Failure e ->
  fst (set_goals int exercise_goal calorie_limit app) = app.
Proof.
  unfold set_goals.
  destruct (validate_goals _ _ _) as [[eg cl]|e']; [|reflexivity].
  destruct (replace_goal _ _ _); [discriminate|reflexivity].
Qed.


(** A successful [set_goals] commits exactly one goal row. *)
Lemma set_goals_Success exercise_goal calorie_limit app :
  snd (set_goals int exercise_goal calorie_limit app) = Success ->
  exists e c,
    validate_goals int exercise_goal calorie_limit = Ok (e, c) /\
    fits e = true /\ fits c = true /\
    db (fst (set_goals int exercise_goal calorie_limit app))
      = mkStore (activities (db app)) (nutrition (db app))
                (insert (delete_all (goals (db app)))
                        (mkGoal (Some e) (Some c))).
Proof.
  unfold set_goals.
  destruct (validate_goals _ _ _) as [[e c]|e']; [|discriminate].
  unfold replace_goal.
  destruct (bind_int e) as [e1|] eqn:He; [|discriminate].
  destruct (bind_int c) as [c1|] eqn:Hc; [|discriminate].
  apply bind_int_Some in He, Hc. destruct He as [-> He], Hc as [-> Hc].
  intros _. exists e, c. simpl. auto.
Qed.

(** Each callback writes to its own table only. *)
Lemma log_activity_frame today name duration intensity app :
  nutrition (db (fst (log_activity int today name duration intensity app)))
    = nutrition (db app) /\
  goals (db (fst (log_activity int today name duration intensity app)))
    = goals (db app).
Proof.
  unfold log_activity.
  destruct (validate_activity _ _ _ _) as [[[n d] i]|e']; [|split; reflexivity].
  unfold insert_activity. destruct (bind_int d); split; reflexivity.
Qed.

Lemma log_nutrition_frame today food_item calories carbs protein fats app :
  activities
    (db (fst (log_nutrition int today food_item calories carbs protein fats app)))
    = activities (db app) /\
  goals
    (db (fst (log_nutrition int today food_item calories carbs protein fats app)))
    = goals (db app).
Proof.
  unfold log_nutrition.
  destruct (validate_nutrition _ _ _ _ _ _) as [[[[[fi cal] c] p] f]|e'];
    [|split; reflexivity].
  unfold insert_nutrition.
  destruct (bind_int cal), (bind_int c), (bind_int p), (bind_int f);
    split; reflexivity.
Qed.

Lemma set_goals_frame exercise_goal calorie_limit app :
  activities (db (fst (set_goals int exercise_goal calorie_limit app)))
    = activities (db app) /\
  nutrition (db (fst (set_goals int exercise_goal calorie_limit app)))
    = nutrition (db app).
Proof.
  unfold set_goals.
  destruct (validate_goals _ _ _) as [[e c]|e']; [|split; reflexivity].
  unfold replace_goal.
  destruct (bind_int e), (bind_int c); split; reflexivity.
Qed.

(** One callback: either it is a [set_goals] that succeeded, and the goals
    table is then a single fresh row, or the goals table is as before. *)
Lemma step_goal_cases (app : App) (a : Action) :
  (is_set_goals a && succeeded (snd (step int app a)) = true /\
   exists g, goals (db (fst (step int app a)))
             = insert (delete_all (goals (db app))) g) \/
  (is_set_goals a && succeeded (snd (step int app a)) = false /\
   goals (db (fst (step int app a))) = goals (db app)).
Proof.
  destruct a as [t n d i|t fi cal c p f|eg cl| | |]; simpl.
  - right. split; [reflexivity|apply log_activity_frame].
  - right. split; [reflexivity|apply log_nutrition_frame].
  - destruct (snd (set_goals int eg cl app)) eqn:Ho.
    + left. split; [reflexivity|].
      apply set_goals_Success in Ho. destruct Ho as (e & c & _ & _ & _ & ->).
      eexists. reflexivity.
    + right. split; [reflexivity|].
      apply set_goals_Failure in Ho. rewrite Ho. reflexivity.
  - right. split; reflexivity.
  - right. split; reflexivity.
  - right. split; reflexivity.
Qed.

Lemma run_app (app : App) (l1 l2 : list Action) :
  fst (run int app (l1 ++ l2)%list) = fst (run int (fst (run int app l1)) l2).
Proof.
  revert app. induction l1 as [|a l1 IH]; intro app; simpl; [reflexivity|].
  destruct (step int app a) as [app' o] eqn:Hs.
  specialize (IH app').
  destruct (run int app' (l1 ++ l2)%list) as [x xs].
  destruct (run int app' l1) as [y ys]. simpl in *. exact IH.
Qed.

Lemma run_reachable (app : App) (l : list Action) :
  reachable int app -> reachable int (fst (run int app l)).
Proof.
  revert app. induction l as [|a l IH]; intros app H; simpl; [exact H|].
  destruct (step int app a) as [app' o] eqn:Hs.
  specialize (IH app').
  destruct (run int app' l) as [x xs]. simpl in *. apply IH.
  replace app' with (fst (step int app a)) by (rewrite Hs; reflexivity).
  constructor. exact H.
Qed.

Lemma reachable_run (app : App) :
  reachable int app -> exists l, app = fst (run int init l).
Proof.
  induction 1 as [|app a H [l ->]].
  - exists []. reflexivity.
  - exists (l ++ [a])%list. rewrite run_app. simpl.
    destruct (step int _ a). reflexivity.
Qed.

End Callbacks.

(** ** Goals: the replace invariant *)

Section Goals.

Variable int : string -> option Z.
Hypothesis int_empty : int "" = None.


Lemma run_cons (app : App) (a : Action) (l : list Action) :
  run int app (a :: l)
  = (fst (run int (fst (step int app a)) l),
     snd (step int app a) :: snd (run int (fst (step int app a)) l)).
Proof.
  simpl. destruct (step int app a) as [app' o]. simpl.
  destruct (run int app' l). reflexivity.
Qed.

Lemma step_goal_count (app : App) (a : Action) :
  (goal_count app <= 1)%nat -> (goal_count (fst (step int app a)) <= 1)%nat.
Proof.
  unfold goal_count. intro H.
  destruct (step_goal_cases int app a) as [[_ [g ->]]|[_ ->]]; [|exact H].
  simpl. lia.
Qed.

Lemma reachable_goal_count (app : App) :
  reachable int app -> (goal_count app <= 1)%nat.
Proof.
  induction 1 as [|app a H IH].
  - cbn. lia.
  - apply step_goal_count. exact IH.
Qed.


Lemma run_goals_empty (l : list Action) : forall app,
  rows (goals (db (fst (run int app l)))) = [] <->
  rows (goals (db app)) = [] /\ goal_was_set l (snd (run int app l)) = false.
Proof.
  induction l as [|a l IH]; intro app.
  - simpl. tauto.
  - rewrite run_cons. cbn [fst snd]. rewrite IH.
    unfold goal_was_set. cbn [combine existsb fst snd].
    rewrite orb_false_iff.
    destruct (step_goal_cases int app a) as [[Hb [g Hg]]|[Hb Heq]]; rewrite Hb.
    + rewrite Hg. simpl. split; [intros [H _]|intros (_ & H & _)]; discriminate.
    + rewrite Heq. tauto.
Qed.

End Goals.

(** ** Accepted submissions *)

Section Submissions.

Variable int : string -> option Z.
Hypothesis int_empty : int "" = None.






End Submissions.

(** * Properties of the tracker *)

(** C1: from a fresh database, after any sequence of activity, nutrition and
    goal submissions and of list and summary views, the goals table has at
    most one row; and every single action keeps it that way. *)
Theorem goals_at_most_one (int : string -> option Z) :
  (forall l : list Action, (goal_count (fst (run int init l)) <= 1)%nat) /\
  (forall (app : App) (a : Action),
      (goal_count app <= 1)%nat -> (goal_count (fst (step int app a)) <= 1)%nat).
Proof.
  split.
  - intro l. apply (reachable_goal_count int).
    apply run_reachable. constructor.
  - intros app a. apply step_goal_count.
Qed.


(** C4: when the validation steps of a submission fail, they fail with
    MissingField or NotNumeric, the callback ends with that error, and the
    application, its database included, is exactly as it was. *)
Theorem validation_failure_persists_nothing (int : string -> option Z)
    (app : App) (a : Action) (e : Error) :
  rejected int a = Some e ->
  (e = MissingField \/ e = NotNumeric) /\
  step int app a = (app, Failure e) /\
  db (fst (step int app a)) = db app.
Proof.
  intro H.
  assert (Hs : step int app a = (app, Failure e)).
  { destruct a; simpl in *; try discriminate.
    - unfold log_activity.
      destruct (validate_activity _ _ _ _); inversion H; reflexivity.
    - unfold log_nutrition.
      destruct (validate_nutrition _ _ _ _ _ _); inversion H; reflexivity.
    - unfold set_goals.
      destruct (validate_goals _ _ _); inversion H; reflexivity. }
  split; [|split; [exact Hs|rewrite Hs; reflexivity]].
  destruct a; simpl in H; try discriminate.
  - destruct (validate_activity _ _ _ _) eqn:Hv; inversion H; subst.
    eapply validate_activity_Err; eassumption.
  - destruct (validate_nutrition _ _ _ _ _ _) eqn:Hv; inversion H; subst.
    eapply validate_nutrition_Err; eassumption.
  - destruct (validate_goals _ _ _) eqn:Hv; inversion H; subst.
    eapply validate_goals_Err; eassumption.
Qed.

(** C6: from a fresh database, after any sequence of actions the latest goal
    is none exactly when no goal submission of the sequence succeeded, and
    exactly then the summary window says that no goals are set. *)
Theorem latest_goal_none_iff (int : string -> option Z) (l : list Action) :
  (latest_goal (db (fst (run int init l))) = None <->
   goal_was_set l (snd (run int init l)) = false) /\
  (open_summary_window (fst (run int init l))
   = ["Your Current Goals:"; "No goals set yet."] <->
   goal_was_set l (snd (run int init l)) = false).
Proof.
  assert (H : latest_goal (db (fst (run int init l))) = None <->
              goal_was_set l (snd (run int init l)) = false).
  { unfold latest_goal. rewrite select_latest_None, run_goals_empty.
    simpl. tauto. }
  split; [exact H|]. rewrite <- H. unfold open_summary_window.
  destruct (latest_goal (db (fst (run int init l)))) as [g|].
  - split; discriminate.
  - split; reflexivity.
Qed.

(** C8: an activity submission with an empty name, duration or intensity is
    rejected with MissingField, whatever the duration entry holds: the
    emptiness check runs before the integer conversion. *)
Theorem missing_field_first (int : string -> option Z)
    (today name duration intensity : string) (app : App) :
  name = "" \/ duration = "" \/ intensity = "" ->
  validate_activity int name duration intensity = Err MissingField /\
  log_activity int today name duration intensity app = (app, Failure MissingField).
Proof.
  intro H.
  assert (Hv : validate_activity int name duration intensity = Err MissingField).
  { unfold validate_activity.
    destruct H as [-> | [-> | ->]]; simpl;
      rewrite ?orb_true_r; reflexivity. }
  split; [exact Hv|]. unfold log_activity. rewrite Hv. reflexivity.
Qed.

(** C9: each persistence operation, and the callback around it, changes the
    table of its own record kind only. *)
Theorem operations_are_independent (int : string -> option Z) :
  (forall today name duration intensity s s',
      insert_activity today name duration intensity s = Ok s' ->
      nutrition s' = nutrition s /\ goals s' = goals s) /\
  (forall today food_item calories carbs protein fats s s',
      insert_nutrition today food_item calories carbs protein fats s = Ok s' ->
      activities s' = activities s /\ goals s' = goals s) /\
  (forall exercise_goal calorie_limit s s',
      replace_goal exercise_goal calorie_limit s = Ok s' ->
      activities s' = activities s /\ nutrition s' = nutrition s) /\
  (forall today name duration intensity app,
      let app' := fst (log_activity int today name duration intensity app) in
      nutrition (db app') = nutrition (db app) /\ goals (db app') = goals (db app)) /\
  (forall today food_item calories carbs protein fats app,
      let app' :=
        fst (log_nutrition int today food_item calories carbs protein fats app) in
      activities (db app') = activities (db app) /\ goals (db app') = goals (db app)) /\
  (forall exercise_goal calorie_limit app,
      let app' := fst (set_goals int exercise_goal calorie_limit app) in
      activities (db app') = activities (db app) /\
      nutrition (db app') = nutrition (db app)).
Proof.
  repeat apply conj.
  - intros today name duration intensity s s'. unfold insert_activity.
    destruct (bind_int duration); intro H; inversion H; split; reflexivity.
  - intros today food_item calories carbs protein fats s s'.
    unfold insert_nutrition.
    destruct (bind_int calories), (bind_int carbs), (bind_int protein),
      (bind_int fats); intro H; inversion H; split; reflexivity.
  - intros exercise_goal calorie_limit s s'. unfold replace_goal.
    destruct (bind_int exercise_goal), (bind_int calorie_limit);
      intro H; inversion H; split; reflexivity.
  - intros. apply log_activity_frame.
  - intros. apply log_nutrition_frame.
  - intros. apply set_goals_frame.
Qed.






(** * The properties on concrete submissions

    [Py.int] is the conversion on ASCII entries; the application starts on a
    fresh database. *)

Lemma goals_at_most_one_witness :
  (goal_count
     (fst (step Py.int (fst (run Py.int init [SetGoals "5" "2000"]))
                (SetGoals "7" "1800"))) <= 1)%nat.
Proof.
  apply (proj2 (goals_at_most_one Py.int)).
  vm_compute. constructor.
Defined.




Lemma validation_failure_persists_nothing_witness :
  rejected Py.int (LogActivity "2024-12-09" "Running" "abc" "High")
  = Some NotNumeric /\
  step Py.int init (LogActivity "2024-12-09" "Running" "abc" "High")
  = (init, Failure NotNumeric) /\
  rejected Py.int (LogActivity "2024-12-09" "Running" "30" "")
  = Some MissingField /\
  step Py.int init (LogActivity "2024-12-09" "Running" "30" "")
  = (init, Failure MissingField).
Proof.
  split; [reflexivity|]. split.
  - exact (proj1 (proj2 (validation_failure_persists_nothing Py.int init
                           (LogActivity "2024-12-09" "Running" "abc" "High")
                           NotNumeric eq_refl))).
  - split; [reflexivity|].
    exact (proj1 (proj2 (validation_failure_persists_nothing Py.int init
                           (LogActivity "2024-12-09" "Running" "30" "")
                           MissingField eq_refl))).
Defined.



Lemma missing_field_first_witness :
  Py.int "abc" = None /\
  validate_activity Py.int "" "abc" "High" = Err MissingField /\
  log_activity Py.int "2024-12-09" "" "abc" "High" init
  = (init, Failure MissingField).
Proof.
  split; [reflexivity|].
  apply (missing_field_first Py.int "2024-12-09" "" "abc" "High" init).
  left. reflexivity.
Defined.

Lemma operations_are_independent_witness :
  goals (db (fst (log_activity Py.int "2024-12-09" "Running" "30" "High"
                    (fst (set_goals Py.int "5" "2000" init)))))
  = goals (db (fst (set_goals Py.int "5" "2000" init))) /\
  nutrition
    (mkStore (insert (activities setup_database)
                     (mkActivity "Running" 30 "High" "2024-12-09"))
             (nutrition setup_database) (goals setup_database))
  = nutrition setup_database.
Proof.
  split.
  - apply (proj1 (proj2 (proj2 (proj2 (operations_are_independent Py.int))))).
  - apply (proj1 (operations_are_independent Py.int)
             "2024-12-09" "Running" 30 "High" setup_database _ eq_refl).
Defined.


(** ** The scenarios of the specification, run *)

Example scenario_running :
  activity_list
    (fst (log_activity Py.int "2024-12-09" "Running" "30" "High" init))
  = "Running - 30 min - High - 2024-12-09" ++ nl.
Proof. vm_compute. reflexivity. Qed.

Example scenario_apple :
  nutrition_list
    (fst (log_nutrition Py.int "2024-12-09" "Apple" "95" "" "" "" init))
  = "Apple - 95 cal - 0g carbs - 0g protein - 0g fats - 2024-12-09" ++ nl.
Proof. vm_compute. reflexivity. Qed.

Example scenario_goals :
  open_summary_window
    (fst (run Py.int init [SetGoals "5" "2000"; SetGoals "7" "1800"]))
  = ["Your Current Goals:"; "Weekly Exercise: 7 hrs";
     "Daily Calorie Limit: 1800 cal"].
Proof. vm_compute. reflexivity. Qed.

Example scenario_rejected :
  snd (run Py.int init
         [LogActivity "2024-12-09" "Running" "abc" "High";
          LogActivity "2024-12-09" "Running" "30" "";
          LoadActivities])
  = [Failure NotNumeric; Failure MissingField; Success] /\
  activity_list
    (fst (run Py.int init
            [LogActivity "2024-12-09" "Running" "abc" "High";
             LogActivity "2024-12-09" "Running" "30" "";
             LoadActivities]))
  = "No activities logged yet." ++ nl.
Proof. vm_compute. split; reflexivity. Qed.

(** * Further properties

    What the callbacks, the views and the start-up do beyond the numbered
    properties above. *)

Section Cases.

Variable int : string -> option Z.

Lemma validate_activity_Ok name duration intensity x :
  validate_activity int name duration intensity = Ok x <->
  name <> "" /\ duration <> "" /\ intensity <> "" /\
  exists d, int duration = Some d /\ x = (name, d, intensity).
Proof.
  unfold validate_activity, to_int. rewrite <- !truthy_true.
  destruct (Py.truthy name), (Py.truthy duration), (Py.truthy intensity);
    simpl; try (split; [discriminate|intros (A & B & C & _); discriminate]).
  destruct (int duration) as [d|]; simpl; split.
  - intro H. inversion H. repeat split; eauto.
  - intros (_ & _ & _ & d' & Hd & ->). inversion Hd. reflexivity.
  - discriminate.
  - intros (_ & _ & _ & d' & Hd & _). discriminate.
Qed.

Lemma validate_nutrition_Ok food_item calories carbs protein fats x :
  validate_nutrition int food_item calories carbs protein fats = Ok x <->
  food_item <> "" /\ calories <> "" /\
  exists cal c p f,
    int calories = Some cal /\ optional_value int carbs = Some c /\
    optional_value int protein = Some p /\ optional_value int fats = Some f /\
    x = (food_item, cal, c, p, f).
Proof.
  unfold validate_nutrition, optional_value, to_int. rewrite <- !truthy_true.
  destruct (Py.truthy food_item), (Py.truthy calories);
    simpl; try (split; [discriminate|intros (A & B & _); discriminate]).
  destruct (int calories) as [cal|]; simpl;
    [|split; [discriminate|intros (_ & _ & ? & ? & ? & ? & H & _); discriminate]].
  destruct (if Py.truthy carbs then int carbs else Some 0) as [c|] eqn:Ec.
  2:{ split.
      - destruct (Py.truthy carbs); [rewrite Ec|]; discriminate.
      - intros (_ & _ & ? & ? & ? & ? & _ & H & _). discriminate. }
  destruct (if Py.truthy protein then int protein else Some 0) as [q|] eqn:Ep.
  2:{ split.
      - destruct (Py.truthy carbs); [rewrite Ec|]; simpl;
          (destruct (Py.truthy protein); [rewrite Ep|]; discriminate).
      - intros (_ & _ & ? & ? & ? & ? & _ & _ & H & _). discriminate. }
  destruct (if Py.truthy fats then int fats else Some 0) as [f|] eqn:Ef.
  2:{ split.
      - destruct (Py.truthy carbs); [rewrite Ec|]; simpl;
          (destruct (Py.truthy protein); [rewrite Ep|]; simpl);
          (destruct (Py.truthy fats); [rewrite Ef|]; discriminate).
      - intros (_ & _ & ? & ? & ? & ? & _ & _ & _ & H & _). discriminate. }
  assert (E : (c0 <- (if Py.truthy carbs
                      then match int carbs with
                           | Some n => Ok n
                           | None => Err NotNumeric
                           end
                      else Ok 0) ;;
               p0 <- (if Py.truthy protein
                      then match int protein with
                           | Some n => Ok n
                           | None => Err NotNumeric
                           end
                      else Ok 0) ;;
               f0 <- (if Py.truthy fats
                      then match int fats with
                           | Some n => Ok n
                           | None => Err NotNumeric
                           end
                      else Ok 0) ;;
               Ok (food_item, cal, c0, p0, f0))
              = Ok (food_item, cal, c, q, f)).
  { destruct (Py.truthy carbs); [rewrite Ec|inversion Ec]; simpl;
      (destruct (Py.truthy protein); [rewrite Ep|inversion Ep]; simpl);
      (destruct (Py.truthy fats); [rewrite Ef|inversion Ef]; reflexivity). }
  rewrite E. split.
  - intro H. inversion H. repeat split; try discriminate.
    exists cal, c, q, f. repeat split; reflexivity.
  - intros (_ & _ & cal' & c' & p' & f' & H1 & H2 & H3 & H4 & ->).
    inversion H1; inversion H2; inversion H3; inversion H4. reflexivity.
Qed.

Lemma validate_goals_Ok exercise_goal calorie_limit x :
  validate_goals int exercise_goal calorie_limit = Ok x <->
  exercise_goal <> "" /\ calorie_limit <> "" /\
  exists e c, int exercise_goal = Some e /\ int calorie_limit = Some c /\
              x = (e, c).
Proof.
  unfold validate_goals, to_int. rewrite <- !truthy_true.
  destruct (Py.truthy exercise_goal), (Py.truthy calorie_limit);
    simpl; try (split; [discriminate|intros (A & B & _); discriminate]).
  destruct (int exercise_goal) as [e|]; simpl;
    [|split; [discriminate|intros (_ & _ & ? & ? & H & _); discriminate]].
  destruct (int calorie_limit) as [c|]; simpl;
    [|split; [discriminate|intros (_ & _ & ? & ? & _ & H & _); discriminate]].
  split.
  - intro H. inversion H. repeat split; try discriminate. eauto.
  - intros (_ & _ & e' & c' & H1 & H2 & ->). inversion H1; inversion H2.
    reflexivity.
Qed.

End Cases.

Section Outcomes.

Variable int : string -> option Z.

(** Each callback as a function of what its validation returns. *)
Lemma log_activity_eq today name duration intensity app :
  log_activity int today name duration intensity app
  = match validate_activity int name duration intensity with
    | Err e => (app, Failure e)
    | Ok (n, d, i) =>
        if fits d
        then (load_activities
                (with_db app
                   (mkStore (insert (activities (db app)) (mkActivity n d i today))
                            (nutrition (db app)) (goals (db app)))),
              Success)
        else (app, Failure Overflow)
    end.
Proof.
  unfold log_activity, insert_activity, bind_int.
  destruct (validate_activity _ _ _ _) as [[[n d] i]|e]; [|reflexivity].
  destruct (fits d); reflexivity.
Qed.

Lemma log_nutrition_eq today food_item calories carbs protein fats app :
  log_nutrition int today food_item calories carbs protein fats app
  = match validate_nutrition int food_item calories carbs protein fats with
    | Err e => (app, Failure e)
    | Ok (fi, cal, c, p, f) =>
        if fits cal && fits c && fits p && fits f
        then (load_nutrition
                (with_db app
                   (mkStore (activities (db app))
                            (insert (nutrition (db app))
                                    (mkNutrition fi cal (Some c) (Some p) (Some f)
                                                 today))
                            (goals (db app)))),
              Success)
        else (app, Failure Overflow)
    end.
Proof.
  unfold log_nutrition, insert_nutrition, bind_int.
  destruct (validate_nutrition _ _ _ _ _ _) as [[[[[fi cal] c] p] f]|e];
    [|reflexivity].
  destruct (fits cal), (fits c), (fits p), (fits f); reflexivity.
Qed.

Lemma set_goals_eq exercise_goal calorie_limit app :
  set_goals int exercise_goal calorie_limit app
  = match validate_goals int exercise_goal calorie_limit with
    | Err e => (app, Failure e)
    | Ok (e, c) =>
        if fits e && fits c
        then (mkApp (mkStore (activities (db app)) (nutrition (db app))
                             (insert (delete_all (goals (db app)))
                                     (mkGoal (Some e) (Some c))))
                    (activity_list app) (nutrition_list app) (goal_label e c),
              Success)
        else (app, Failure Overflow)
    end.
Proof.
  unfold set_goals, replace_goal, bind_int.
  destruct (validate_goals _ _ _) as [[e c]|e]; [|reflexivity].
  destruct (fits e), (fits c); reflexivity.
Qed.

(** An invariant of every step is an invariant of every run. *)
Lemma run_invariant (P : App -> Prop) :
  (forall app a, P app -> P (fst (step int app a))) ->
  forall l app, P app -> P (fst (run int app l)).
Proof.
  intros Hstep l. induction l as [|a l IH]; intros app H; [exact H|].
  rewrite run_cons. simpl. apply IH, Hstep, H.
Qed.

End Outcomes.


Section NotNumericCases.

Variable int : string -> option Z.


End NotNumericCases.






Section Invariants.

Variable int : string -> option Z.

Lemma main_in_sync (f : File) : in_sync (main f).
Proof. split; reflexivity. Qed.

Lemma step_in_sync (app : App) (a : Action) :
  in_sync app -> in_sync (fst (step int app a)).
Proof.
  intros [Ha Hn]. destruct a as [t n d i|t fi cal c p f|eg cl| | |]; simpl.
  - rewrite log_activity_eq.
    destruct (validate_activity _ _ _ _) as [[[n' d'] i']|e]; [|split; assumption].
    destruct (fits d'); split; first [assumption|reflexivity].
  - rewrite log_nutrition_eq.
    destruct (validate_nutrition _ _ _ _ _ _) as [[[[[fi' cal'] c'] p'] f']|e];
      [|split; assumption].
    destruct (_ && _); split; first [assumption|reflexivity].
  - rewrite set_goals_eq.
    destruct (validate_goals _ _ _) as [[e c]|e]; [|split; assumption].
    destruct (_ && _); split; assumption.
  - split; [reflexivity|exact Hn].
  - split; [exact Ha|reflexivity].
  - split; assumption.
Qed.

(** The goal label and the goals table agree. *)
Definition label_agrees (app : App) : Prop :=
  (rows (goals (db app)) = [] /\ goal_status app = "") \/
  (exists id e c,
      rows (goals (db app)) = [(id, mkGoal (Some e) (Some c))] /\
      goal_status app = goal_label e c).

Lemma step_label_agrees (app : App) (a : Action) :
  label_agrees app -> label_agrees (fst (step int app a)).
Proof.
  intro H. destruct a as [t n d i|t fi cal c p f|eg cl| | |]; simpl;
    try exact H.
  - rewrite log_activity_eq.
    destruct (validate_activity _ _ _ _) as [[[n' d'] i']|e]; [|exact H].
    destruct (fits d'); exact H.
  - rewrite log_nutrition_eq.
    destruct (validate_nutrition _ _ _ _ _ _) as [[[[[fi' cal'] c'] p'] f']|e];
      [|exact H].
    destruct (_ && _); exact H.
  - rewrite set_goals_eq.
    destruct (validate_goals _ _ _) as [[e c]|e]; [|exact H].
    destruct (_ && _); [|exact H].
    right. eexists _, e, c. split; reflexivity.
Qed.

End Invariants.

(** X5: the two list widgets always show what the tables hold.  After
    start-up on any database file and any sequence of actions, the text of
    the activity list is the rendering of the stored activities and the
    text of the nutrition list the rendering of the stored nutrition
    records. *)
Theorem lists_in_sync (int : string -> option Z) (f : File) (l : list Action) :
  in_sync (fst (run int (main f) l)).
Proof.
  apply run_invariant.
  - apply step_in_sync.
  - apply main_in_sync.
Qed.

(** X6: in a session started on a fresh database the goal label and the
    stored goal agree: the label is empty while no goal is stored, and
    otherwise it shows the two values of the stored goal, the ones the
    summary window shows. *)
Theorem goal_label_agrees (int : string -> option Z) (l : list Action) :
  let app := fst (run int init l) in
  match latest_goal (db app) with
  | None =>
      goal_status app = "" /\
      open_summary_window app = ["Your Current Goals:"; "No goals set yet."]
  | Some g =>
      exists e c,
        g = mkGoal (Some e) (Some c) /\
        goal_status app = goal_label e c /\
        open_summary_window app
        = ["Your Current Goals:";
           "Weekly Exercise: " ++ Py.str e ++ " hrs";
           "Daily Calorie Limit: " ++ Py.str c ++ " cal"]
  end.
Proof.
  cbv zeta.
  assert (H : label_agrees (fst (run int init l))).
  { apply run_invariant; [apply step_label_agrees|].
    left. split; reflexivity. }
  unfold open_summary_window, latest_goal, select_latest.
  destruct H as [[Hr Hs]|(id & e & c & Hr & Hs)]; rewrite Hr; simpl.
  - split; [exact Hs|reflexivity].
  - exists e, c. repeat split. exact Hs.
Qed.

Section Growth.

Variable int : string -> option Z.

Lemma successes_cons (p : Action -> bool) a l o os :
  successes p (a :: l) (o :: os)
  = ((if p a && succeeded o then 1 else 0) + successes p l os)%nat.
Proof.
  unfold successes. simpl. destruct (p a && succeeded o); reflexivity.
Qed.

(** One action adds one activity row when it is an activity submission that
    succeeds, one nutrition row when it is a nutrition submission that
    succeeds, and otherwise nothing; no row is changed or removed. *)
Lemma step_growth (app : App) (a : Action) :
  exists acts nuts,
    rows (activities (db (fst (step int app a))))
    = (rows (activities (db app)) ++ acts)%list /\
    rows (nutrition (db (fst (step int app a))))
    = (rows (nutrition (db app)) ++ nuts)%list /\
    List.length acts
    = (if is_log_activity a && succeeded (snd (step int app a)) then 1 else 0)%nat /\
    List.length nuts
    = (if is_log_nutrition a && succeeded (snd (step int app a)) then 1 else 0)%nat.
Proof.
  assert (Same : forall o,
             is_log_activity a && succeeded o = false ->
             is_log_nutrition a && succeeded o = false ->
             fst (step int app a) = app \/
             (activities (db (fst (step int app a))) = activities (db app) /\
              nutrition (db (fst (step int app a))) = nutrition (db app)) ->
             snd (step int app a) = o ->
             exists acts nuts,
               rows (activities (db (fst (step int app a))))
               = (rows (activities (db app)) ++ acts)%list /\
               rows (nutrition (db (fst (step int app a))))
               = (rows (nutrition (db app)) ++ nuts)%list /\
               List.length acts
               = (if is_log_activity a && succeeded (snd (step int app a))
                  then 1 else 0)%nat /\
               List.length nuts
               = (if is_log_nutrition a && succeeded (snd (step int app a))
                  then 1 else 0)%nat).
  { intros o H1 H2 H3 Ho. exists [], []. rewrite Ho, H1, H2, !app_nil_r.
    destruct H3 as [-> | [-> ->]]; repeat split. }
  destruct a as [t n d i|t fi cal c p f|eg cl| | |].
  - simpl. simpl in Same. rewrite log_activity_eq in *.
    destruct (validate_activity _ _ _ _) as [[[n' d'] i']|e];
      [destruct (fits d')|].
    + eexists [_], []. simpl. rewrite app_nil_r. repeat split.
    + apply (Same (Failure Overflow)); auto.
    + apply (Same (Failure e)); auto.
  - simpl. simpl in Same. rewrite log_nutrition_eq in *.
    destruct (validate_nutrition _ _ _ _ _ _) as [[[[[fi' cal'] c'] p'] f']|e];
      [destruct (_ && _)|].
    + eexists [], [_]. simpl. rewrite app_nil_r. repeat split.
    + apply (Same (Failure Overflow)); auto.
    + apply (Same (Failure e)); auto.
  - simpl. simpl in Same. apply (Same (snd (set_goals int eg cl app)));
      try reflexivity.
    right. apply set_goals_frame.
  - apply (Same Success); try reflexivity. right. split; reflexivity.
  - apply (Same Success); try reflexivity. right. split; reflexivity.
  - apply (Same Success); try reflexivity. left. reflexivity.
Qed.

End Growth.

(** X7: activities and nutrition records are only ever appended.  Over any
    sequence of actions from any state, the rows present before are still
    there afterwards, unchanged and in the same order with the same ids,
    followed by exactly one new row for each submission of that kind that
    succeeded. *)
Theorem records_only_appended (int : string -> option Z)
    (app : App) (l : list Action) :
  exists acts nuts,
    rows (activities (db (fst (run int app l))))
    = (rows (activities (db app)) ++ acts)%list /\
    rows (nutrition (db (fst (run int app l))))
    = (rows (nutrition (db app)) ++ nuts)%list /\
    List.length acts = successes is_log_activity l (snd (run int app l)) /\
    List.length nuts = successes is_log_nutrition l (snd (run int app l)).
Proof.
  revert app. induction l as [|a l IH]; intro app.
  - exists [], []. simpl. rewrite !app_nil_r. repeat split.
  - rewrite run_cons. cbn [fst snd]. rewrite !successes_cons.
    destruct (step_growth int app a) as (a1 & n1 & Ha1 & Hn1 & La1 & Ln1).
    destruct (IH (fst (step int app a))) as (a2 & n2 & Ha2 & Hn2 & La2 & Ln2).
    exists (a1 ++ a2)%list, (n1 ++ n2)%list.
    rewrite Ha2, Hn2, Ha1, Hn1, <- !app_assoc, !length_app, La1, Ln1, La2, Ln2.
    repeat split.
Qed.

Section Numbering.

Variable int : string -> option Z.

Lemma max_id_snoc (l : list Z) (x : Z) :
  max_id (l ++ [x]) = Z.max (max_id l) (Z.max x 0).
Proof.
  unfold max_id. induction l as [|y l IH]; simpl; [lia|].
  rewrite IH. lia.
Qed.

Lemma first_ids_S (n : nat) :
  first_ids (S n) = (first_ids n ++ [Z.of_nat (S n)])%list.
Proof.
  unfold first_ids. rewrite seq_S, map_app. reflexivity.
Qed.

Lemma max_id_first_ids (n : nat) : max_id (first_ids n) = Z.of_nat n.
Proof.
  induction n as [|n IH]; [reflexivity|].
  rewrite first_ids_S, max_id_snoc, IH. lia.
Qed.

(** The rows of a table carry the ids 1, 2, ..., n, and [sqlite_sequence]
    holds n. *)
Definition numbered {R} (t : table R) : Prop :=
  ids t = first_ids (List.length (rows t)) /\
  seq t = Z.of_nat (List.length (rows t)).

Lemma create_numbered {R} : numbered (@create R).
Proof. split; reflexivity. Qed.

Lemma insert_numbered {R} (t : table R) (r : R) :
  numbered t -> numbered (insert t r).
Proof.
  intros [Hi Hs].
  assert (Hn : next_id t = Z.of_nat (S (List.length (rows t)))).
  { unfold next_id. rewrite Hi, Hs, max_id_first_ids. lia. }
  unfold numbered, ids in *.
  rewrite rows_insert, map_app, length_app. cbn [map fst List.length].
  rewrite Nat.add_1_r, first_ids_S, <- Hi, Hn. split; [reflexivity|exact Hn].
Qed.

Lemma step_numbered (app : App) (a : Action) :
  numbered (activities (db app)) /\ numbered (nutrition (db app)) ->
  numbered (activities (db (fst (step int app a)))) /\
  numbered (nutrition (db (fst (step int app a)))).
Proof.
  intros [Ha Hn]. destruct a as [t n d i|t fi cal c p f|eg cl| | |]; simpl;
    try (split; assumption).
  - rewrite log_activity_eq.
    destruct (validate_activity _ _ _ _) as [[[n' d'] i']|e]; [|split; assumption].
    destruct (fits d'); [|split; assumption].
    split; [apply insert_numbered, Ha|exact Hn].
  - rewrite log_nutrition_eq.
    destruct (validate_nutrition _ _ _ _ _ _) as [[[[[fi' cal'] c'] p'] f']|e];
      [|split; assumption].
    destruct (_ && _); [|split; assumption].
    split; [exact Ha|apply insert_numbered, Hn].
  - destruct (set_goals_frame int eg cl app) as [-> ->]. split; assumption.
Qed.

End Numbering.

(** X8: in a session started on a fresh database the stored activities carry
    the ids 1, 2, ..., n in the order they were logged, and so do the stored
    nutrition records: ids are unique, increasing, and without gaps. *)
Theorem ids_count_up (int : string -> option Z) (l : list Action) :
  let app := fst (run int init l) in
  ids (activities (db app))
  = first_ids (List.length (list_activities (db app))) /\
  ids (nutrition (db app))
  = first_ids (List.length (list_nutrition (db app))) /\
  NoDup (ids (activities (db app))) /\ NoDup (ids (nutrition (db app))).
Proof.
  cbv zeta.
  assert (H : numbered (activities (db (fst (run int init l)))) /\
              numbered (nutrition (db (fst (run int init l))))).
  { apply (run_invariant int
             (fun app => numbered (activities (db app)) /\
                         numbered (nutrition (db app)))).
    - apply step_numbered.
    - split; apply create_numbered. }
  destruct H as [[Ha _] [Hn _]].
  unfold list_activities, list_nutrition, select_all. rewrite !length_map.
  assert (ND : forall n, NoDup (first_ids n)).
  { intro n. unfold first_ids. apply Finite.Injective_map_NoDup.
    - intros x y Hxy. lia.
    - apply seq_NoDup. }
  rewrite Ha, Hn. repeat split; apply ND.
Qed.

(** X9: goal ids are never reused.  In a session started on a fresh database
    the stored goal, if any, carries as its id the number of goal
    submissions that have succeeded so far: each replacement gets the next
    id although the row before it was deleted. *)
Theorem goal_id_counts_replacements (int : string -> option Z) (l : list Action) :
  let r := run int init l in
  let k := successes is_set_goals l (snd r) in
  seq (goals (db (fst r))) = Z.of_nat k /\
  (k = 0%nat -> rows (goals (db (fst r))) = []) /\
  (k <> 0%nat -> exists g, rows (goals (db (fst r))) = [(Z.of_nat k, g)]).
Proof.
  cbv zeta.
  assert (G : forall l app,
             0 <= seq (goals (db app)) ->
             let r := run int app l in
             let k := successes is_set_goals l (snd r) in
             seq (goals (db (fst r))) = seq (goals (db app)) + Z.of_nat k /\
             (k = 0%nat -> goals (db (fst r)) = goals (db app)) /\
             (k <> 0%nat ->
              exists g, rows (goals (db (fst r)))
                        = [(seq (goals (db app)) + Z.of_nat k, g)])).
  { clear l. induction l as [|a l IH]; intros app Hs; cbv zeta.
    - simpl. split; [lia|]. split; [reflexivity|].
      intro H. exfalso. apply H. reflexivity.
    - rewrite run_cons. cbn [fst snd]. rewrite successes_cons.
      destruct (step_goal_cases int app a) as [[Hb [g Hg]]|[Hb Heq]]; rewrite Hb.
      + assert (Hs1 : seq (goals (db (fst (step int app a))))
                      = seq (goals (db app)) + 1).
        { rewrite Hg. unfold insert, next_id, delete_all. simpl. lia. }
        assert (Hr1 : rows (goals (db (fst (step int app a))))
                      = [(seq (goals (db app)) + 1, g)]).
        { rewrite Hg. unfold insert, next_id, delete_all. simpl.
          repeat f_equal. lia. }
        specialize (IH (fst (step int app a))). cbv zeta in IH.
        destruct IH as (I1 & I2 & I3); [lia|].
        split; [lia|]. split; [discriminate|]. intros _.
        destruct (successes is_set_goals l
                    (snd (run int (fst (step int app a)) l))) as [|k'] eqn:Ek.
        * exists g. rewrite (I2 eq_refl), Hr1. reflexivity.
        * destruct (I3 ltac:(discriminate)) as [g' Hg'].
          exists g'. rewrite Hg', Hs1. do 2 f_equal. lia.
      + specialize (IH (fst (step int app a))). cbv zeta in IH.
        rewrite Heq in IH. destruct IH as (I1 & I2 & I3); [exact Hs|].
        simpl. repeat split; auto. }
  specialize (G l init). cbv zeta in G.
  destruct G as (G1 & G2 & G3); [simpl; lia|].
  simpl in G1, G3. split; [exact G1|]. split; [|exact G3].
  intro Hk. rewrite (G2 Hk). reflexivity.
Qed.

Section StoredValues.

Variable int : string -> option Z.

Lemma forallb_insert {R} (p : R -> bool) (t : table R) (r : R) :
  forallb p (select_all (insert t r)) = forallb p (select_all t) && p r.
Proof.
  rewrite select_all_insert, forallb_app. simpl. rewrite andb_true_r.
  reflexivity.
Qed.

Lemma step_store_ok (app : App) (a : Action) :
  store_ok (db app) = true -> store_ok (db (fst (step int app a))) = true.
Proof.
  intro H. destruct a as [t n d i|t fi cal c p f|eg cl| | |]; simpl;
    try exact H.
  - rewrite log_activity_eq.
    destruct (validate_activity _ _ _ _) as [[[n' d'] i']|e] eqn:Hv; [|exact H].
    destruct (fits d') eqn:Hf; [|exact H].
    apply validate_activity_Ok in Hv.
    destruct Hv as (Hn & _ & Hi & d0 & _ & E). inversion E; subst.
    apply truthy_true in Hn, Hi.
    unfold store_ok in *. simpl. rewrite forallb_insert.
    unfold activity_ok at 2. simpl. rewrite Hn, Hi, Hf.
    apply andb_true_iff in H. destruct H as [H H3].
    apply andb_true_iff in H. destruct H as [H1 H2].
    rewrite H1, H2, H3. reflexivity.
  - rewrite log_nutrition_eq.
    destruct (validate_nutrition _ _ _ _ _ _) as [[[[[fi' cal'] c'] p'] f']|e]
      eqn:Hv; [|exact H].
    destruct (_ && _) eqn:Hf; [|exact H].
    apply validate_nutrition_Ok in Hv.
    destruct Hv as (Hn & _ & cal0 & c0 & p0 & f0 & _ & _ & _ & _ & E).
    inversion E; subst. apply truthy_true in Hn.
    unfold store_ok in *. simpl. rewrite forallb_insert.
    unfold nutrition_ok at 2. simpl. rewrite Hn. simpl. rewrite Hf.
    apply andb_true_iff in H. destruct H as [H H3].
    apply andb_true_iff in H. destruct H as [H1 H2].
    rewrite H1, H2, H3. reflexivity.
  - rewrite set_goals_eq.
    destruct (validate_goals _ _ _) as [[e c]|e]; [|exact H].
    destruct (_ && _) eqn:Hf; [|exact H].
    unfold store_ok in *. simpl. unfold goal_ok. simpl. rewrite Hf.
    apply andb_true_iff in H. destruct H as [H _]. rewrite H. reflexivity.
Qed.

End StoredValues.

(** X10: nothing reaches the database without the checks of its form.  If
    every stored row is well formed (non-empty name and intensity,
    non-empty food item, every number a 64-bit integer and none of them
    null), then so is every stored row after any sequence of actions. *)
Theorem stored_rows_stay_well_formed (int : string -> option Z)
    (app : App) (l : list Action) :
  store_ok (db app) = true -> store_ok (db (fst (run int app l))) = true.
Proof.
  intro H.
  apply (run_invariant int (fun app => store_ok (db app) = true)).
  - apply step_store_ok.
  - exact H.
Qed.

Lemma stored_rows_stay_well_formed_witness :
  store_ok
    (db (fst (run Py.int init
                [LogActivity "2024-12-09" "Running" "30" "High";
                 LogNutrition "2024-12-09" "Apple" "95" "" "x" "";
                 LogNutrition "2024-12-09" "Apple" "95" "" "" "";
                 SetGoals "5" "99999999999999999999";
                 SetGoals "5" "2000"])))
  = true.
Proof.
  apply (stored_rows_stay_well_formed Py.int init). reflexivity.
Defined.

(** X11: each callback writes to its own widget only.  Logging an activity
    leaves the nutrition list, the goal label and the summary window as
    they were; logging nutrition leaves the activity list, the goal label
    and the summary window; setting goals leaves both lists, and on success
    puts the two converted values into the goal label. *)
Theorem callbacks_keep_other_widgets (int : string -> option Z) (app : App) :
  (forall today name duration intensity,
      let app' := fst (log_activity int today name duration intensity app) in
      nutrition_list app' = nutrition_list app /\
      goal_status app' = goal_status app /\
      open_summary_window app' = open_summary_window app) /\
  (forall today food_item calories carbs protein fats,
      let app' :=
        fst (log_nutrition int today food_item calories carbs protein fats app) in
      activity_list app' = activity_list app /\
      goal_status app' = goal_status app /\
      open_summary_window app' = open_summary_window app) /\
  (forall exercise_goal calorie_limit,
      let r := set_goals int exercise_goal calorie_limit app in
      activity_list (fst r) = activity_list app /\
      nutrition_list (fst r) = nutrition_list app /\
      (snd r = Success ->
       exists e c, int exercise_goal = Some e /\ int calorie_limit = Some c /\
                   goal_status (fst r) = goal_label e c)).
Proof.
  split; [|split].
  - intros today name duration intensity. cbv zeta. rewrite log_activity_eq.
    destruct (validate_activity _ _ _ _) as [[[n d] i]|e]; [|repeat split].
    destruct (fits d); repeat split.
  - intros today food_item calories carbs protein fats. cbv zeta.
    rewrite log_nutrition_eq.
    destruct (validate_nutrition _ _ _ _ _ _) as [[[[[fi cal] c] p] f]|e];
      [|repeat split].
    destruct (_ && _); repeat split.
  - intros exercise_goal calorie_limit. cbv zeta. rewrite set_goals_eq.
    destruct (validate_goals _ _ _) as [[e c]|err] eqn:Hv.
    + apply validate_goals_Ok in Hv.
      destruct Hv as (_ & _ & e' & c' & He & Hc & E). inversion E; subst.
      destruct (_ && _); simpl; repeat split; try discriminate.
      intros _. exists e', c'. repeat split; assumption.
    + simpl. repeat split. discriminate.
Qed.

(** X12: restarting the program loses no data.  Started again on the file a
    session left behind, the program finds the same database, shows the same
    two lists and the same summary window; only the goal label starts empty
    again, whether or not a goal is stored.  Started on no file it is the
    fresh application. *)
Theorem restart_keeps_data (int : string -> option Z) (f : File) (l : list Action) :
  let app := fst (run int (main f) l) in
  let app' := main (file_of (db app)) in
  db app' = db app /\
  activity_list app' = activity_list app /\
  nutrition_list app' = nutrition_list app /\
  open_summary_window app' = open_summary_window app /\
  goal_status app' = "" /\
  main no_file = init.
Proof.
  cbv zeta.
  assert (H : in_sync (fst (run int (main f) l))).
  { apply run_invariant; [apply step_in_sync|apply main_in_sync]. }
  destruct H as [Ha Hn].
  assert (Hdb : db (main (file_of (db (fst (run int (main f) l)))))
                = db (fst (run int (main f) l))).
  { simpl. destruct (db (fst (run int (main f) l))). reflexivity. }
  split; [exact Hdb|].
  split; [rewrite Ha; reflexivity|].
  split; [rewrite Hn; reflexivity|].
  split; [unfold open_summary_window; rewrite Hdb; reflexivity|].
  split; reflexivity.
Qed.

(** X13: the summary window reads the goal row with the largest id.  On any
    goals table, also one that holds several rows, the latest goal is none
    only for the empty table, and otherwise is a row of the table whose id
    no other row exceeds. *)
Theorem latest_goal_has_largest_id (s : Store) :
  match latest_goal s with
  | None => rows (goals s) = []
  | Some g =>
      exists i, In (i, g) (rows (goals s)) /\
                forall j g', In (j, g') (rows (goals s)) -> j <= i
  end.
Proof.
  unfold latest_goal, select_latest.
  assert (T : forall l : list (Z * GoalRecord),
             match top l with
             | None => l = []
             | Some (i, g) =>
                 In (i, g) l /\ forall j g', In (j, g') l -> j <= i
             end).
  { induction l as [|[i g] l IH]; simpl; [reflexivity|].
    destruct (top l) as [[j g']|].
    - destruct IH as [Hin Hmax]. destruct (i <? j) eqn:Hlt.
      + apply Z.ltb_lt in Hlt. split; [right; exact Hin|].
        intros k g'' [E|Hk]; [inversion E; lia|eapply Hmax; exact Hk].
      + apply Z.ltb_ge in Hlt. split; [left; reflexivity|].
        intros k g'' [E|Hk]; [inversion E; lia|].
        specialize (Hmax _ _ Hk). lia.
    - subst l. split; [left; reflexivity|].
      intros k g'' [E|[]]. inversion E. lia. }
  specialize (T (rows (goals s))).
  destruct (top (rows (goals s))) as [[i g]|]; simpl; [|exact T].
  exists i. exact T.
Qed.

Lemma lstrip_all_space (l : list ascii) :
  forallb Py.isspace l = true -> Py.lstrip l = [].
Proof.
  induction l as [|c l IH]; simpl; [reflexivity|].
  intro H. apply andb_true_iff in H. destruct H as [Hc Hl].
  rewrite Hc. apply IH, Hl.
Qed.

Lemma int_all_space (s : string) : Py.all_space s = true -> Py.int s = None.
Proof.
  unfold Py.all_space, Py.int, Py.strip. intro H.
  rewrite (lstrip_all_space _ H). reflexivity.
Qed.

(** X14: a numeric entry filled with white space only is refused as not
    numeric, not as missing, and nothing is stored: so the duration of an
    activity, the calories and each filled macro entry of a nutrition
    record, and both entries of the goals form. *)
Theorem blank_number_is_not_numeric (s other : string) (app : App) :
  blank s -> other <> "" ->
  (forall today,
      log_activity Py.int today other s other app = (app, Failure NotNumeric)) /\
  (forall today carbs protein fats,
      log_nutrition Py.int today other s carbs protein fats app
      = (app, Failure NotNumeric)) /\
  (forall today,
      log_nutrition Py.int today other "95" s "" "" app
      = (app, Failure NotNumeric) /\
      log_nutrition Py.int today other "95" "" s "" app
      = (app, Failure NotNumeric) /\
      log_nutrition Py.int today other "95" "" "" s app
      = (app, Failure NotNumeric)) /\
  set_goals Py.int s other app = (app, Failure NotNumeric) /\
  set_goals Py.int "5" s app = (app, Failure NotNumeric).
Proof.
  intros [Hne Hsp] Ho.
  pose proof (int_all_space s Hsp) as Hi.
  apply truthy_true in Hne, Ho.
  repeat split; intros.
  - rewrite log_activity_eq. unfold validate_activity, to_int.
    rewrite Ho, Hne, Hi. reflexivity.
  - rewrite log_nutrition_eq. unfold validate_nutrition, to_int.
    rewrite Ho, Hne, Hi. reflexivity.
  - rewrite log_nutrition_eq. unfold validate_nutrition, to_int.
    rewrite Ho, Hne, Hi. reflexivity.
  - rewrite log_nutrition_eq. unfold validate_nutrition, to_int.
    rewrite Ho, Hne, Hi. reflexivity.
  - rewrite log_nutrition_eq. unfold validate_nutrition, to_int.
    rewrite Ho, Hne, Hi. reflexivity.
  - rewrite set_goals_eq. unfold validate_goals, to_int.
    rewrite Ho, Hne, Hi. reflexivity.
  - rewrite set_goals_eq. unfold validate_goals, to_int.
    rewrite Hne, Hi. reflexivity.
Qed.

Lemma blank_number_is_not_numeric_witness :
  blank "  " /\
  log_activity Py.int "2024-12-09" "Running" "  " "Running" init
  = (init, Failure NotNumeric).
Proof.
  assert (Hb : blank "  ") by (split; [discriminate|reflexivity]).
  split; [exact Hb|].
  apply (proj1 (blank_number_is_not_numeric "  " "Running" init Hb
                  ltac:(discriminate))).
Defined.
